(** * Health-Analyzer: the metric evaluator and the report store of [app.py]

    A shallow embedding of the Flask handlers [index], [clear_history] and
    [delete_report] of [src/app.py], with the parts of the Python runtime
    they rely on, followed by the properties of the evaluator, of the
    persistence gate and of deletion.

    - Python [float] values are IEEE binary64 numbers, modelled by the
      standard library's [spec_float] with precision 53 and [emax] 1024.
    - Python [int] values are unbounded: [Z].
    - [try: ... except Exception: ...] is a handler in an exception monad.
    - The [reports] table is a list of rows in insertion order, together
      with the AUTOINCREMENT counter. *)

From Stdlib Require Import ZArith QArith Bool List String Ascii Lia Permutation.
From Stdlib Require Import Floats.SpecFloat.
From stdpp Require Import gmap strings list pretty.

Open Scope string_scope.
Open Scope Z_scope.

(* ===================================================================== *)
(** * The Python runtime, as far as the handlers use it *)
(* ===================================================================== *)

Module Py.

(** The exceptions the handlers can meet; all derive from [Exception]. *)
Inductive exn : Set :=
| TypeError
| ValueError
| ZeroDivisionError.

(** A statement sequence either completes with a value or raises. *)
Inductive outcome (A : Type) : Type :=
| Ok (a : A)
| Raise (e : exn).
Arguments Ok {A} a.
Arguments Raise {A} e.

Definition bind {A B : Type} (m : outcome A) (k : A -> outcome B) : outcome B :=
  match m with
  | Ok a => k a
  | Raise e => Raise e
  end.

(** [try: body  except Exception: handler] *)
Definition try_except {A : Type} (body : outcome A) (handler : exn -> outcome A)
  : outcome A :=
  match body with
  | Ok a => Ok a
  | Raise e => handler e
  end.

Definition raises {A : Type} (m : outcome A) : bool :=
  match m with
  | Ok _ => false
  | Raise _ => true
  end.

(** ** Floats: binary64 *)

Abbreviation float := spec_float (only parsing).

Definition prec : Z := 53.
Definition emax : Z := 1024.

Definition fmul (x y : float) : float := SFmul prec emax x y.
Definition fdiv (x y : float) : float := SFdiv prec emax x y.

(** [x < y] and [x > y] on floats; both are [False] when a NaN is involved. *)
Definition flt (x y : float) : bool := SFltb x y.
Definition fgt (x y : float) : bool := SFltb y x.

Definition is_zero (x : float) : bool :=
  match x with
  | S754_zero _ => true
  | _ => false
  end.

(** [x / y] on floats raises when the divisor is a zero of either sign. *)
Definition truediv (x y : float) : outcome float :=
  if is_zero y then Raise ZeroDivisionError else Ok (fdiv x y).

(** An integer literal compared with a float stands for its exact value. *)
Definition float_of_Z (n : Z) : float := binary_normalize prec emax n 0 false.

(** The float literals of the source. *)
Definition lit_100 : float := Eval vm_compute in float_of_Z 100.
Definition lit_18_5 : float :=
  Eval vm_compute in binary_normalize prec emax 37 (-1) false.
Definition lit_24_9 : float :=
  Eval vm_compute in fdiv (S754_finite false 249 0) (S754_finite false 10 0).

(** ** Strings *)

(** [s.startswith(p)] *)
Definition startswith (s p : string) : bool := String.prefix p s.

(** [p in s] *)
Fixpoint contains (p s : string) : bool :=
  String.prefix p s ||
  match s with
  | EmptyString => false
  | String _ s' => contains p s'
  end.

(** ** Builtins whose definition lies outside the program

    [str_to_float s] and [str_to_int s] are [float(s)] and [int(s)] on a
    string, [None] standing for [ValueError]; [format_1f x] is
    [f"{x:.1f}"]. The development is parametric in them. *)
Class Builtins : Type := {
  str_to_float : string -> option float;
  str_to_int : string -> option Z;
  format_1f : float -> string
}.

Section Conversions.
Context `{Builtins}.

(** [float(x)] where [x] is a string or [None]. *)
Definition py_float (x : option string) : outcome float :=
  match x with
  | None => Raise TypeError
  | Some s =>
      match str_to_float s with
      | Some f => Ok f
      | None => Raise ValueError
      end
  end.

(** [int(x)] where [x] is a string or [None]. *)
Definition py_int (x : option string) : outcome Z :=
  match x with
  | None => Raise TypeError
  | Some s =>
      match str_to_int s with
      | Some n => Ok n
      | None => Raise ValueError
      end
  end.
End Conversions.

(** [x or None] on an optional string: the empty string is falsy. *)
Definition or_None (x : option string) : option string :=
  match x with
  | Some EmptyString => None
  | _ => x
  end.

(** Truth value of an optional integer ([None] and [0] are falsy). *)
Definition truthy (x : option Z) : bool :=
  match x with
  | Some n => negb (n =? 0)
  | None => false
  end.

End Py.

(** Statements are sequenced with stdpp's [x ← m; k]. *)
#[export] Instance outcome_bind : MBind Py.outcome :=
  fun A B k m => Py.bind m k.
#[export] Instance outcome_ret : MRet Py.outcome := @Py.Ok.

(* ===================================================================== *)
(** * A reader and a formatter for decimal literals

    An instance of [Py.Builtins] to run the handlers on concrete forms. It
    reads optionally signed decimal literals with an optional fraction and
    exponent, [inf], [infinity] and [nan], surrounded by blanks, and rounds
    to the nearest binary64, ties to even. *)
(* ===================================================================== *)

Module Decimal.

Definition is_space (c : ascii) : bool :=
  let n := nat_of_ascii c in
  ((9 <=? n) && (n <=? 13))%nat || (n =? 32)%nat.

Definition is_digit (c : ascii) : bool :=
  let n := nat_of_ascii c in ((48 <=? n) && (n <=? 57))%nat.

Definition digit_val (c : ascii) : Z := Z.of_nat (nat_of_ascii c) - 48.

Definition lower (c : ascii) : ascii :=
  let n := nat_of_ascii c in
  if ((65 <=? n) && (n <=? 90))%nat then ascii_of_nat (n + 32) else c.

Fixpoint lowercase (s : string) : string :=
  match s with
  | EmptyString => EmptyString
  | String c r => String (lower c) (lowercase r)
  end.

Fixpoint lstrip (s : string) : string :=
  match s with
  | String c r => if is_space c then lstrip r else s
  | EmptyString => EmptyString
  end.

Fixpoint rstrip (s : string) : string :=
  match s with
  | EmptyString => EmptyString
  | String c r =>
      match rstrip r with
      | EmptyString => if is_space c then EmptyString else String c EmptyString
      | r' => String c r'
      end
  end.

Definition strip (s : string) : string := rstrip (lstrip s).

(** Reads a run of digits: its value after [acc], its length, the rest. *)
Fixpoint read_digits (s : string) (acc : Z) (n : Z) : Z * Z * string :=
  match s with
  | String c r =>
      if is_digit c then read_digits r (10 * acc + digit_val c) (n + 1)
      else (acc, n, s)
  | EmptyString => (acc, n, s)
  end.

Definition read_sign (s : string) : bool * string :=
  match s with
  | String "-" r => (true, r)
  | String "+" r => (false, r)
  | _ => (false, s)
  end.

(** [int(s)] for a signed run of decimal digits. *)
Definition read_int (s : string) : option Z :=
  let '(neg, r) := read_sign (strip s) in
  let '(v, n, rest) := read_digits r 0 0 in
  if (0 <? n) && String.eqb rest EmptyString
  then Some (if neg then - v else v)
  else None.

(** The binary64 nearest to [m * 10 ^ k], for [m > 0]. *)
Definition round_decimal (neg : bool) (m : positive) (k : Z) : Py.float :=
  if 0 <=? k
  then binary_round Py.prec Py.emax neg (m * Z.to_pos (10 ^ k)) 0
  else Py.fdiv (S754_finite neg m 0) (S754_finite false (Z.to_pos (10 ^ (- k))) 0).

Definition read_exponent (s : string) : option (Z * string) :=
  match s with
  | String c r =>
      if Ascii.eqb (lower c) "e"
      then
        let '(neg, r1) := read_sign r in
        let '(v, n, rest) := read_digits r1 0 0 in
        if 0 <? n then Some (if neg then - v else v, rest) else None
      else Some (0, s)
  | EmptyString => Some (0, s)
  end.

Definition read_number (neg : bool) (s : string) : option Py.float :=
  let '(ip, n1, r1) := read_digits s 0 0 in
  let '(m, n2, r2) :=
    match r1 with
    | String "." r => read_digits r ip 0
    | _ => (ip, 0, r1)
    end in
  if 0 <? n1 + n2
  then
    match read_exponent r2 with
    | Some (ex, EmptyString) =>
        Some match m with
             | Z.pos p => round_decimal neg p (ex - n2)
             | _ => S754_zero neg
             end
    | _ => None
    end
  else None.

(** [float(s)] *)
Definition read_float (s : string) : option Py.float :=
  let '(neg, r) := read_sign (strip s) in
  let w := lowercase r in
  if String.eqb w "inf" || String.eqb w "infinity" then Some (S754_infinity neg)
  else if String.eqb w "nan" then Some S754_nan
  else read_number neg r.

(** The integer nearest to [n / d], ties to even, for [d > 0]. *)
Definition div_half_even (n d : Z) : Z :=
  let q := n / d in
  let r := n mod d in
  match 2 * r ?= d with
  | Lt => q
  | Gt => q + 1
  | Eq => if Z.even q then q else q + 1
  end.

(** Tenths in the magnitude [m * 2 ^ e], rounded half to even. *)
Definition tenths (m : positive) (e : Z) : Z :=
  if 0 <=? e then 10 * Z.pos m * 2 ^ e
  else div_half_even (10 * Z.pos m) (2 ^ (- e)).

Definition sign_str (neg : bool) : string := if neg then "-" else "".

(** [f"{x:.1f}"] *)
Definition fixed1 (x : Py.float) : string :=
  match x with
  | S754_nan => "nan"
  | S754_infinity s => sign_str s +:+ "inf"
  | S754_zero s => sign_str s +:+ "0.0"
  | S754_finite s m e =>
      let t := tenths m e in
      sign_str s +:+ pretty (t / 10) +:+ "." +:+ pretty (t mod 10)
  end.

#[export] Instance builtins : Py.Builtins := {|
  Py.str_to_float := read_float;
  Py.str_to_int := read_int;
  Py.format_1f := fixed1
|}.

End Decimal.

(* ===================================================================== *)
(** * Data model *)
(* ===================================================================== *)

Inductive http_method : Set := GET | POST.

(** A request: its method and [request.form]. *)
Record request : Type := {
  method : http_method;
  form : gmap string string
}.

(** The two session entries the handlers read. *)
Record session : Type := {
  session_user_id : option Z;
  session_user_name : option string
}.

(** [get_current_user()] *)
Definition get_current_user (sess : session) : option Z * option string :=
  (session_user_id sess, session_user_name sess).

(** A classification: the status label and the advisory text. *)
Definition classification : Type := string * string.

Definition status (c : classification) : string := fst c.

(** [result]: a Python dict, which keeps its keys in insertion order. *)
Definition dict : Type := list (string * classification).

(** [d[k] = v] *)
Fixpoint dict_set (k : string) (v : classification) (d : dict) : dict :=
  match d with
  | [] => [(k, v)]
  | (k', v') :: d' =>
      if String.eqb k' k then (k, v) :: d' else (k', v') :: dict_set k v d'
  end.

(** [d.get(k)] *)
Fixpoint dict_get (k : string) (d : dict) : option classification :=
  match d with
  | [] => None
  | (k', v') :: d' => if String.eqb k' k then Some v' else dict_get k d'
  end.

(** [d.values()] and [d.keys()] *)
Definition values (d : dict) : list classification := map snd d.
Definition keys (d : dict) : list string := map fst d.

(** [x is not None] *)
Definition not_None {A : Type} (x : option A) : bool :=
  match x with
  | Some _ => true
  | None => false
  end.

(** [all(...)] over a list of truth values. *)
Definition all (bs : list bool) : bool := forallb (fun b => b) bs.

(* ===================================================================== *)
(** * The metric evaluator: lines 200-379 of [index] *)
(* ===================================================================== *)

Module Evaluator.

(** The seven raw fields, after [request.form.get(...) or None]. *)
Record MetricInput : Type := {
  hb_raw : option string;
  sugar_raw : option string;
  bp_sys_raw : option string;
  bp_dia_raw : option string;
  chol_raw : option string;
  height_raw : option string;
  weight_raw : option string
}.

Definition read_form (f : gmap string string) : MetricInput := {|
  hb_raw := Py.or_None (f !! "hb");
  sugar_raw := Py.or_None (f !! "sugar");
  bp_sys_raw := Py.or_None (f !! "bp_sys");
  bp_dia_raw := Py.or_None (f !! "bp_dia");
  chol_raw := Py.or_None (f !! "chol");
  height_raw := Py.or_None (f !! "height");
  weight_raw := Py.or_None (f !! "weight")
|}.

(** The locals of [index] once the evaluation is over. *)
Record EvaluationResult : Type := {
  result : dict;
  overall_summary : option classification;
  hb : option Py.float;
  sugar : option Py.float;
  bp_sys : option Z;
  bp_dia : option Z;
  chol : option Py.float;
  height_cm : option Py.float;
  weight_kg : option Py.float;
  bmi_value : option Py.float
}.

(** ** The classifications of the five [except] handlers *)

Definition hemoglobin_error : classification :=
  ("Error", "Please enter a valid Hemoglobin value.").
Definition sugar_error : classification :=
  ("Error", "Please enter a valid sugar value.").
Definition blood_pressure_error : classification :=
  ("Error", "Please enter valid BP values.").
Definition cholesterol_error : classification :=
  ("Error", "Please enter a valid cholesterol value.").
Definition bmi_error : classification :=
  ("Error", "Please enter valid height and weight.").

(** ** The threshold rules, one per [if]/[elif]/[else] chain *)

Definition hemoglobin_rule (hb : Py.float) : classification :=
  if Py.flt hb (Py.float_of_Z 12) then
    ("Low",
     "Hemoglobin appears lower than the normal range. Consult a doctor if symptoms persist.")
  else if Py.fgt hb (Py.float_of_Z 16) then
    ("High",
     "Hemoglobin appears higher than the normal range. A medical check-up is recommended.")
  else
    ("Normal", "Hemoglobin is within the normal range.").

Definition sugar_rule (sugar : Py.float) : classification :=
  if Py.flt sugar (Py.float_of_Z 70) then
    ("Low", "Low fasting sugar may cause dizziness or weakness.")
  else if Py.fgt sugar (Py.float_of_Z 125) then
    ("High",
     "Fasting sugar appears high and may indicate diabetes. Consult a doctor.")
  else
    ("Normal", "Fasting sugar is within the normal range.").

Definition blood_pressure_rule (bp_sys bp_dia : Z) : classification :=
  if (bp_sys <? 90) || (bp_dia <? 60) then
    ("Low", "Blood pressure is low. Hydration and rest may help.")
  else if (bp_sys >? 140) || (bp_dia >? 90) then
    ("High",
     "Blood pressure is high and may pose risks. A medical consultation is recommended.")
  else
    ("Normal", "Blood pressure is within the normal range.").

Definition cholesterol_rule (chol : Py.float) : classification :=
  if Py.fgt chol (Py.float_of_Z 240) then
    ("High", "Cholesterol is high and may increase heart disease risk.")
  else if Py.fgt chol (Py.float_of_Z 200) then
    ("Borderline",
     "Cholesterol is borderline high. Healthy diet and lifestyle changes may help.")
  else
    ("Normal", "Cholesterol is within a healthy range.").

Section Blocks.
Context `{Py.Builtins}.

Definition bmi_rule (bmi_value : Py.float) : classification :=
  if Py.flt bmi_value Py.lit_18_5 then
    (Py.format_1f bmi_value +:+ " (Underweight)",
     "BMI indicates underweight. A balanced nutritious diet is recommended.")
  else if Py.fgt bmi_value Py.lit_24_9 then
    (Py.format_1f bmi_value +:+ " (Overweight)",
     "BMI indicates overweight. Regular exercise and diet control are advised.")
  else
    (Py.format_1f bmi_value +:+ " (Normal)", "BMI is within normal limits.").

(** ** The five [try]/[except] blocks

    Each takes the raw fields it reads and the dict so far, and gives
    the locals it assigns and the dict after it. *)

(** 1) Hemoglobin *)
Definition hemoglobin_block (hb_raw : option string) (result : dict)
  : Py.outcome (option Py.float * dict) :=
  Py.try_except
    (hb ← Py.py_float hb_raw;
     mret (Some hb, dict_set "Hemoglobin" (hemoglobin_rule hb) result))
    (fun _ =>
       mret (None, dict_set "Hemoglobin" hemoglobin_error result)).

(** 2) Fasting Sugar *)
Definition sugar_block (sugar_raw : option string) (result : dict)
  : Py.outcome (option Py.float * dict) :=
  Py.try_except
    (sugar ← Py.py_float sugar_raw;
     mret (Some sugar, dict_set "Fasting Sugar" (sugar_rule sugar) result))
    (fun _ =>
       mret (None, dict_set "Fasting Sugar" sugar_error result)).

(** 3) Blood Pressure *)
Definition blood_pressure_block (bp_sys_raw bp_dia_raw : option string)
    (result : dict) : Py.outcome (option Z * option Z * dict) :=
  Py.try_except
    (bp_sys ← Py.py_int bp_sys_raw;
     bp_dia ← Py.py_int bp_dia_raw;
     mret (Some bp_sys, Some bp_dia,
           dict_set "Blood Pressure" (blood_pressure_rule bp_sys bp_dia) result))
    (fun _ =>
       mret (None, None,
             dict_set "Blood Pressure" blood_pressure_error result)).

(** 4) Cholesterol *)
Definition cholesterol_block (chol_raw : option string) (result : dict)
  : Py.outcome (option Py.float * dict) :=
  Py.try_except
    (chol ← Py.py_float chol_raw;
     mret (Some chol, dict_set "Cholesterol" (cholesterol_rule chol) result))
    (fun _ =>
       mret (None, dict_set "Cholesterol" cholesterol_error result)).

(** 5) BMI. [bmi_value] is assigned by the division only; the handler
    resets [height_cm] and [weight_kg] and leaves [bmi_value] as it was
    on entry. *)
Definition bmi_block (height_raw weight_raw : option string)
    (bmi_value : option Py.float) (result : dict)
  : Py.outcome (option Py.float * option Py.float * option Py.float * dict) :=
  Py.try_except
    (height_cm ← Py.py_float height_raw;
     weight_kg ← Py.py_float weight_raw;
     height_m ← Py.truediv height_cm Py.lit_100;
     bmi ← Py.truediv weight_kg (Py.fmul height_m height_m);
     mret (Some height_cm, Some weight_kg, Some bmi,
           dict_set "BMI" (bmi_rule bmi) result))
    (fun _ =>
       mret (None, None, bmi_value, dict_set "BMI" bmi_error result)).

(** ** Overall summary based on all statuses *)

Definition is_error (s : string) : bool :=
  String.eqb s "Error" || Py.startswith s "Error".

Definition is_abnormal (s : string) : bool :=
  Py.startswith s "High"
  || Py.startswith s "Low"
  || Py.contains "Underweight" s
  || Py.contains "Overweight" s
  || String.eqb s "Borderline".

(** The [for s in statuses] loop. *)
Definition count_abnormal (statuses : list string) : Z :=
  fold_left
    (fun abnormal_count s =>
       if is_abnormal s then abnormal_count + 1 else abnormal_count)
    statuses 0.

(** The body of [if result:], on the list [statuses]. *)
Definition summary_of (statuses : list string) : classification :=
  if existsb is_error statuses then
    ("Data Issue",
     "Some inputs were invalid. Please correct the highlighted fields and try again.")
  else
    let abnormal_count := count_abnormal statuses in
    if abnormal_count =? 0 then
      ("Stable / Normal",
       "All tracked parameters appear within normal ranges. Maintain your current lifestyle and regular check-ups.")
    else if abnormal_count =? 1 then
      ("Mild Concern",
       "One parameter needs attention. Monitor your health and consider lifestyle adjustments.")
    else if (2 <=? abnormal_count) && (abnormal_count <=? 3) then
      ("Needs Attention",
       "Multiple parameters are outside the normal range. A detailed check-up and lifestyle review are recommended.")
    else
      ("High Risk",
       "Several parameters are abnormal. Please consult a doctor for a complete evaluation.").

(** [if result: ...]: an empty dict is falsy and leaves
    [overall_summary] as it was. *)
Definition summarize (result : dict) (overall_summary : option classification)
  : option classification :=
  match result with
  | [] => overall_summary
  | _ => Some (summary_of (map status (values result)))
  end.

(** ** The evaluation: the body of [if request.method == "POST"] up to
    the summary, started from the initial [result], [overall_summary]
    and [bmi_value] of [index]. *)
Definition evaluate (raw : MetricInput) (result : dict)
    (overall_summary : option classification) (bmi_value : option Py.float)
  : Py.outcome EvaluationResult :=
  '(hb, result) ← hemoglobin_block (hb_raw raw) result;
  '(sugar, result) ← sugar_block (sugar_raw raw) result;
  '(bp_sys, bp_dia, result) ←
    blood_pressure_block (bp_sys_raw raw) (bp_dia_raw raw) result;
  '(chol, result) ← cholesterol_block (chol_raw raw) result;
  '(height_cm, weight_kg, bmi_value, result) ←
    bmi_block (height_raw raw) (weight_raw raw) bmi_value result;
  mret {|
    result := result;
    overall_summary := summarize result overall_summary;
    hb := hb; sugar := sugar; bp_sys := bp_sys; bp_dia := bp_dia;
    chol := chol; height_cm := height_cm; weight_kg := weight_kg;
    bmi_value := bmi_value
  |}.

End Blocks.

End Evaluator.

(* ===================================================================== *)
(** * The report store: the [reports] table *)
(* ===================================================================== *)

Module Store.

(** A row of [reports]. Every column but [id] is nullable. *)
Record report : Type := {
  id : Z;
  created_at : string;
  hb : option Py.float;
  sugar : option Py.float;
  bp_sys : option Z;
  bp_dia : option Z;
  chol : option Py.float;
  height_cm : option Py.float;
  weight_kg : option Py.float;
  bmi : option Py.float;
  user_id : option Z
}.

(** The table in insertion order and the last AUTOINCREMENT value. *)
Record db : Type := {
  reports : list report;
  seq : Z
}.

(** [save_report(...)]: one INSERT, taken to succeed; [now] is the
    formatted [datetime.now()]. *)
Definition save_report (hb sugar : option Py.float) (bp_sys bp_dia : option Z)
    (chol height_cm weight_kg bmi : option Py.float) (user_id : option Z)
    (now : string) (d : db) : db :=
  {| reports :=
       reports d ++
       [ {| id := seq d + 1; created_at := now;
            hb := hb; sugar := sugar; bp_sys := bp_sys; bp_dia := bp_dia;
            chol := chol; height_cm := height_cm; weight_kg := weight_kg;
            bmi := bmi; user_id := user_id |} ];
     seq := seq d + 1 |}.

(** [WHERE user_id = ?]: a NULL on either side matches nothing. *)
Definition owned_by (uid : option Z) (r : report) : bool :=
  match user_id r, uid with
  | Some u, Some v => u =? v
  | _, _ => false
  end.

(** [DELETE FROM reports WHERE cond] *)
Definition delete_where (cond : report -> bool) (d : db) : db :=
  {| reports := List.filter (fun r => negb (cond r)) (reports d);
     seq := seq d |}.

End Store.

(* ===================================================================== *)
(** * The handlers *)
(* ===================================================================== *)

(** What [index] hands to [render_template]. *)
Record page : Type := {
  page_result : dict;
  page_overall_summary : option classification;
  page_user_name : option string;
  page_user_id : option Z
}.

Section Handlers.
Context `{Py.Builtins}.

(** [index()], route [/]. *)
Definition index (req : request) (sess : session) (now : string) (d : Store.db)
  : Py.outcome (page * Store.db) :=
  let result : dict := [] in
  let overall_summary : option classification := None in
  let bmi_value : option Py.float := None in
  let '(user_id, user_name) := get_current_user sess in
  match method req with
  | POST =>
      ev ← Evaluator.evaluate (Evaluator.read_form (form req))
             result overall_summary bmi_value;
      let d' :=
        if all [ not_None (Evaluator.hb ev); not_None (Evaluator.sugar ev);
                 not_None (Evaluator.bp_sys ev); not_None (Evaluator.bp_dia ev);
                 not_None (Evaluator.chol ev); not_None (Evaluator.height_cm ev);
                 not_None (Evaluator.weight_kg ev);
                 not_None (Evaluator.bmi_value ev) ]
        then
          Store.save_report (Evaluator.hb ev) (Evaluator.sugar ev)
            (Evaluator.bp_sys ev) (Evaluator.bp_dia ev) (Evaluator.chol ev)
            (Evaluator.height_cm ev) (Evaluator.weight_kg ev)
            (Evaluator.bmi_value ev) user_id now d
        else d in
      mret ({| page_result := Evaluator.result ev;
               page_overall_summary := Evaluator.overall_summary ev;
               page_user_name := user_name;
               page_user_id := user_id |}, d')
  | GET =>
      mret ({| page_result := result;
               page_overall_summary := overall_summary;
               page_user_name := user_name;
               page_user_id := user_id |}, d)
  end.

End Handlers.

(** [clear_history()], route [/clear_history]. *)
Definition clear_history (sess : session) (d : Store.db) : Store.db :=
  let '(user_id, _) := get_current_user sess in
  if Py.truthy user_id then
    Store.delete_where (Store.owned_by user_id) d
  else
    Store.delete_where (fun _ => true) d.

(** [delete_report(report_id)], route [/delete/<int:report_id>]. *)
Definition delete_report (report_id : Z) (sess : session) (d : Store.db)
  : Store.db :=
  let '(user_id, _) := get_current_user sess in
  if Py.truthy user_id then
    Store.delete_where
      (fun r => (Store.id r =? report_id) && Store.owned_by user_id r) d
  else
    Store.delete_where (fun r => Store.id r =? report_id) d.

(* ===================================================================== *)
(** * Definitions used to state the properties *)
(* ===================================================================== *)

(** ** The number a float stands for *)

Module Value.

Definition signed (s : bool) (m : positive) : Z := cond_Zopp s (Z.pos m).

(** The exact rational value of a zero or of a finite float. *)
Definition F2Q (x : Py.float) : Q :=
  match x with
  | S754_finite s m e =>
      if 0 <=? e then inject_Z (signed s m * 2 ^ e)
      else Qmake (signed s m) (2 ^ Z.to_pos (- e))
  | _ => 0%Q
  end.

(** The floats Python can hold: canonical binary64 representations. *)
Definition valid64 (x : Py.float) : Prop :=
  valid_binary Py.prec Py.emax x = true.

Definition is_number (x : Py.float) : bool :=
  match x with
  | S754_zero _ | S754_finite _ _ _ => true
  | _ => false
  end.

(** [x > q] and [x <= q] as numbers, the infinities included; a NaN is
    in neither relation with anything. *)
Definition above (x : Py.float) (q : Q) : Prop :=
  match x with
  | S754_nan => False
  | S754_infinity s => s = false
  | _ => (q < F2Q x)%Q
  end.

Definition at_most (x : Py.float) (q : Q) : Prop :=
  match x with
  | S754_nan => False
  | S754_infinity s => s = true
  | _ => (F2Q x <= q)%Q
  end.

(** The integer [x / 2 ^ -1074] of a binary64 number. *)
Definition ulps (x : Py.float) : Z :=
  match x with
  | S754_finite s m e => signed s m * 2 ^ (e + 1074)
  | _ => 0
  end.

End Value.

(** ** What a block yields, as a function of the raw fields it reads *)

Module Entry.
Section Entries.
Context `{Py.Builtins}.

Definition hemoglobin (hb_raw : option string)
  : option Py.float * classification :=
  match Py.py_float hb_raw with
  | Py.Ok hb => (Some hb, Evaluator.hemoglobin_rule hb)
  | Py.Raise _ => (None, Evaluator.hemoglobin_error)
  end.

Definition sugar (sugar_raw : option string)
  : option Py.float * classification :=
  match Py.py_float sugar_raw with
  | Py.Ok sugar => (Some sugar, Evaluator.sugar_rule sugar)
  | Py.Raise _ => (None, Evaluator.sugar_error)
  end.

Definition blood_pressure (bp_sys_raw bp_dia_raw : option string)
  : option Z * option Z * classification :=
  match Py.py_int bp_sys_raw, Py.py_int bp_dia_raw with
  | Py.Ok bp_sys, Py.Ok bp_dia =>
      (Some bp_sys, Some bp_dia, Evaluator.blood_pressure_rule bp_sys bp_dia)
  | _, _ => (None, None, Evaluator.blood_pressure_error)
  end.

Definition cholesterol (chol_raw : option string)
  : option Py.float * classification :=
  match Py.py_float chol_raw with
  | Py.Ok chol => (Some chol, Evaluator.cholesterol_rule chol)
  | Py.Raise _ => (None, Evaluator.cholesterol_error)
  end.

(** The square of the height in metres: the divisor of the BMI. *)
Definition height_m_squared (height_cm : Py.float) : Py.float :=
  let height_m := Py.fdiv height_cm Py.lit_100 in
  Py.fmul height_m height_m.

Definition bmi (height_raw weight_raw : option string)
  : option Py.float * option Py.float * option Py.float * classification :=
  match Py.py_float height_raw, Py.py_float weight_raw with
  | Py.Ok height_cm, Py.Ok weight_kg =>
      if Py.is_zero (height_m_squared height_cm)
      then (None, None, None, Evaluator.bmi_error)
      else
        let bmi := Py.fdiv weight_kg (height_m_squared height_cm) in
        (Some height_cm, Some weight_kg, Some bmi, Evaluator.bmi_rule bmi)
  | _, _ => (None, None, None, Evaluator.bmi_error)
  end.

End Entries.
End Entry.

(** The dict the five blocks build from the empty one. *)
Definition final_result `{Py.Builtins} (raw : Evaluator.MetricInput) : dict :=
  [ ("Hemoglobin", snd (Entry.hemoglobin (Evaluator.hb_raw raw)));
    ("Fasting Sugar", snd (Entry.sugar (Evaluator.sugar_raw raw)));
    ("Blood Pressure",
     snd (Entry.blood_pressure (Evaluator.bp_sys_raw raw)
            (Evaluator.bp_dia_raw raw)));
    ("Cholesterol", snd (Entry.cholesterol (Evaluator.chol_raw raw)));
    ("BMI",
     snd (Entry.bmi (Evaluator.height_raw raw) (Evaluator.weight_raw raw))) ].

(** The five keys of [result], in the order the blocks set them. *)
Definition metric_names : list string :=
  ["Hemoglobin"; "Fasting Sugar"; "Blood Pressure"; "Cholesterol"; "BMI"].

(** All eight numbers behind the five metrics are present. *)
Definition complete (ev : Evaluator.EvaluationResult) : Prop :=
  is_Some (Evaluator.hb ev) /\ is_Some (Evaluator.sugar ev) /\
  is_Some (Evaluator.bp_sys ev) /\ is_Some (Evaluator.bp_dia ev) /\
  is_Some (Evaluator.chol ev) /\ is_Some (Evaluator.height_cm ev) /\
  is_Some (Evaluator.weight_kg ev) /\ is_Some (Evaluator.bmi_value ev).


(** What the persistence gate of [index] does to the store. *)
Definition gate (ev : Evaluator.EvaluationResult) (owner : option Z)
    (now : string) (d : Store.db) : Store.db :=
  if all [ not_None (Evaluator.hb ev); not_None (Evaluator.sugar ev);
           not_None (Evaluator.bp_sys ev); not_None (Evaluator.bp_dia ev);
           not_None (Evaluator.chol ev); not_None (Evaluator.height_cm ev);
           not_None (Evaluator.weight_kg ev);
           not_None (Evaluator.bmi_value ev) ]
  then
    Store.save_report (Evaluator.hb ev) (Evaluator.sugar ev)
      (Evaluator.bp_sys ev) (Evaluator.bp_dia ev) (Evaluator.chol ev)
      (Evaluator.height_cm ev) (Evaluator.weight_kg ev)
      (Evaluator.bmi_value ev) owner now d
  else d.

(** ** The rollup as the specification words it *)

Module Spec.

Definition begins_with (p s : string) : Prop := exists t, s = p +:+ t.

Definition has (p s : string) : Prop := exists a b, s = a +:+ p +:+ b.

Definition error (s : string) : Prop := s = "Error" \/ begins_with "Error" s.

Definition abnormal (s : string) : Prop :=
  begins_with "High" s \/ begins_with "Low" s \/
  has "Underweight" s \/ has "Overweight" s \/ s = "Borderline".

(** [count P l n]: exactly [n] positions of [l] satisfy [P]. *)
Inductive count (P : string -> Prop) : list string -> nat -> Prop :=
| count_nil : count P [] 0
| count_hit s l n : P s -> count P l n -> count P (s :: l) (S n)
| count_miss s l n : ~ P s -> count P l n -> count P (s :: l) n.

Definition label (n : nat) : string :=
  match n with
  | 0%nat => "Stable / Normal"
  | 1%nat => "Mild Concern"
  | 2%nat | 3%nat => "Needs Attention"
  | _ => "High Risk"
  end.

Inductive rollup (statuses : list string) : string -> Prop :=
| rollup_error :
    Exists error statuses -> rollup statuses "Data Issue"
| rollup_count n :
    Forall (fun s => ~ error s) statuses ->
    count abnormal statuses n ->
    rollup statuses (label n).

End Spec.

(** The statuses a dict holds, in its order. *)
Definition statuses (result : dict) : list string := map status (values result).

(** The label [summary_of] gives, by a filter instead of a loop. *)
Definition label_of (l : list string) : string :=
  if existsb Evaluator.is_error l then "Data Issue"
  else Spec.label (length (List.filter Evaluator.is_abnormal l)).

(** ** Sample inputs *)

Module Sample.

Definition guest : session :=
  {| session_user_id := None; session_user_name := None |}.

Definition alice : session :=
  {| session_user_id := Some 1; session_user_name := Some "alice" |}.

Definition now : string := "2024-01-01 00:00:00".

Definition empty_db : Store.db := {| Store.reports := []; Store.seq := 0 |}.

Definition input (hb sugar bp_sys bp_dia chol height weight : string)
  : Evaluator.MetricInput :=
  {| Evaluator.hb_raw := Py.or_None (Some hb);
     Evaluator.sugar_raw := Py.or_None (Some sugar);
     Evaluator.bp_sys_raw := Py.or_None (Some bp_sys);
     Evaluator.bp_dia_raw := Py.or_None (Some bp_dia);
     Evaluator.chol_raw := Py.or_None (Some chol);
     Evaluator.height_raw := Py.or_None (Some height);
     Evaluator.weight_raw := Py.or_None (Some weight) |}.

Definition post (hb sugar bp_sys bp_dia chol height weight : string) : request :=
  {| method := POST;
     form := list_to_map
               [ ("hb", hb); ("sugar", sugar); ("bp_sys", bp_sys);
                 ("bp_dia", bp_dia); ("chol", chol); ("height", height);
                 ("weight", weight) ] |}.

Definition get : request := {| method := GET; form := ∅ |}.

(** A stored row owned by [owner]. *)
Definition row (id : Z) (owner : option Z) : Store.report :=
  {| Store.id := id; Store.created_at := now;
     Store.hb := None; Store.sugar := None; Store.bp_sys := Some 120;
     Store.bp_dia := Some 80; Store.chol := None; Store.height_cm := None;
     Store.weight_kg := None; Store.bmi := None; Store.user_id := owner |}.

Definition three_rows : Store.db :=
  {| Store.reports := [row 1 (Some 1); row 2 (Some 2); row 3 None];
     Store.seq := 3 |}.

End Sample.

(** The statuses, the overall label and the size of the table after a run
    of [index]. *)
Definition summary_line (r : Py.outcome (page * Store.db))
  : option (list string * option string * nat) :=
  match r with
  | Py.Ok (pg, d) =>
      Some (statuses (page_result pg), status <$> page_overall_summary pg,
            length (Store.reports d))
  | Py.Raise _ => None
  end.

(* ===================================================================== *)
(** * The order on binary64 numbers *)
(* ===================================================================== *)

Section FloatOrder.
Import Value.

Lemma digits2_pos_bounds (m : positive) :
  2 ^ (Z.pos (digits2_pos m) - 1) <= Z.pos m < 2 ^ Z.pos (digits2_pos m).
Proof.
  induction m as [p IH | p IH |]; cbn [digits2_pos].
  - rewrite Pos2Z.inj_succ.
    replace (Z.succ (Z.pos (digits2_pos p)) - 1) with (Z.succ (Z.pos (digits2_pos p) - 1)) by lia.
    rewrite !Z.pow_succ_r by lia. lia.
  - rewrite Pos2Z.inj_succ.
    replace (Z.succ (Z.pos (digits2_pos p)) - 1) with (Z.succ (Z.pos (digits2_pos p) - 1)) by lia.
    rewrite !Z.pow_succ_r by lia. lia.
  - cbn. lia.
Qed.

Lemma bounded_inv m e :
  bounded Py.prec Py.emax m e = true ->
  -1074 <= e <= 971 /\ Z.pos m < 2 ^ 53 /\ (-1074 < e -> 2 ^ 52 <= Z.pos m).
Proof.
  unfold bounded, canonical_mantissa, fexp, SpecFloat.emin, Py.prec, Py.emax.
  intros Hb. apply andb_prop in Hb as [Hc He].
  apply Z.eqb_eq in Hc. apply Z.leb_le in He.
  pose proof (digits2_pos_bounds m) as [Hlo Hhi].
  set (d := Z.pos (digits2_pos m)) in *.
  assert (Hd : d <= 53) by lia.
  split; [lia|]. split.
  - eapply Z.lt_le_trans; [exact Hhi|]. apply Z.pow_le_mono_r; lia.
  - intros Hgt. assert (d = 53) as Hd53 by lia. rewrite Hd53 in Hlo. exact Hlo.
Qed.

Lemma F2Q_ulps x :
  valid64 x -> is_number x = true ->
  (F2Q x == ulps x # Z.to_pos (2 ^ 1074))%Q.
Proof.
  destruct x as [s | s | | s m e]; cbn; try discriminate; intros Hv _.
  - reflexivity.
  - apply bounded_inv in Hv as (He & _ & _).
    assert (Hp : Z.pos (Z.to_pos (2 ^ 1074)) = 2 ^ 1074)
      by (apply Z2Pos.id; apply Z.pow_pos_nonneg; lia).
    destruct (0 <=? e) eqn:E; unfold Qeq; cbn [Qnum Qden inject_Z]; rewrite Hp.
    + apply Z.leb_le in E. rewrite Z.pow_add_r by lia. lia.
    + apply Z.leb_gt in E. rewrite Pos2Z.inj_pow.
      rewrite Z2Pos.id by lia.
      replace (2 ^ 1074) with (2 ^ (e + 1074) * 2 ^ (- e)).
      * lia.
      * rewrite <- Z.pow_add_r by lia. f_equal. lia.
Qed.

Lemma ulps_lt_of_exp m1 e1 m2 e2 :
  bounded Py.prec Py.emax m1 e1 = true ->
  bounded Py.prec Py.emax m2 e2 = true ->
  e1 < e2 ->
  Z.pos m1 * 2 ^ (e1 + 1074) < Z.pos m2 * 2 ^ (e2 + 1074).
Proof.
  intros H1 H2 Hlt.
  apply bounded_inv in H1 as (He1 & Hm1 & _).
  apply bounded_inv in H2 as (He2 & _ & Hm2).
  specialize (Hm2 ltac:(lia)).
  replace (e2 + 1074) with ((e2 - e1 - 1) + 1 + (e1 + 1074)) by lia.
  rewrite (Z.pow_add_r 2 (e2 - e1 - 1 + 1) (e1 + 1074)) by lia.
  rewrite (Z.pow_add_r 2 (e2 - e1 - 1) 1) by lia.
  assert (Ha : 0 < 2 ^ (e1 + 1074)) by (apply Z.pow_pos_nonneg; lia).
  assert (Hb : 0 < 2 ^ (e2 - e1 - 1)) by (apply Z.pow_pos_nonneg; lia).
  change (2 ^ 1) with 2. change (2 ^ 53) with (2 ^ 52 * 2) in Hm1.
  set (A := 2 ^ (e1 + 1074)) in *. set (B := 2 ^ (e2 - e1 - 1)) in *.
  set (K := 2 ^ 52) in *.
  apply Z.lt_le_trans with (K * 2 * A).
  - apply Z.mul_lt_mono_pos_r; assumption.
  - apply Z.le_trans with (Z.pos m2 * 2 * A).
    + apply Z.mul_le_mono_nonneg_r; lia.
    + replace (Z.pos m2 * (B * 2 * A)) with (B * (Z.pos m2 * 2 * A)) by ring.
      assert (0 <= Z.pos m2 * 2 * A) by (apply Z.mul_nonneg_nonneg; lia).
      nia.
Qed.

Lemma SFcompare_pos m1 e1 m2 e2 :
  bounded Py.prec Py.emax m1 e1 = true ->
  bounded Py.prec Py.emax m2 e2 = true ->
  match e1 ?= e2 with
  | Lt => Lt
  | Gt => Gt
  | Eq => Pos.compare_cont Eq m1 m2
  end = (Z.pos m1 * 2 ^ (e1 + 1074) ?= Z.pos m2 * 2 ^ (e2 + 1074)).
Proof.
  intros H1 H2. destruct (Z.compare_spec e1 e2) as [-> | Hlt | Hgt].
  - pose proof (bounded_inv _ _ H1) as (He & _ & _).
    assert (Ha : 0 < 2 ^ (e2 + 1074)) by (apply Z.pow_pos_nonneg; lia).
    change (Pos.compare_cont Eq m1 m2) with (Z.pos m1 ?= Z.pos m2).
    apply Zmult_compare_compat_r. lia.
  - symmetry. apply Z.compare_lt_iff. now apply ulps_lt_of_exp.
  - symmetry. apply Z.compare_gt_iff. now apply ulps_lt_of_exp.
Qed.

Lemma SFcompare_ulps x y :
  valid64 x -> valid64 y -> is_number x = true -> is_number y = true ->
  SFcompare x y = Some (ulps x ?= ulps y).
Proof.
  unfold valid64.
  destruct x as [s1 | s1 | | s1 m1 e1]; destruct y as [s2 | s2 | | s2 m2 e2];
    cbn [SFcompare ulps is_number valid_binary]; try discriminate;
    intros H1 H2 _ _; f_equal.
  - pose proof (bounded_inv _ _ H2) as (He & _ & _).
    pose proof (Z.pow_pos_nonneg 2 (e2 + 1074) ltac:(lia) ltac:(lia)) as Hp.
    destruct s2; cbn [signed cond_Zopp]; symmetry;
      [apply Z.compare_gt_iff | apply Z.compare_lt_iff]; nia.
  - pose proof (bounded_inv _ _ H1) as (He & _ & _).
    pose proof (Z.pow_pos_nonneg 2 (e1 + 1074) ltac:(lia) ltac:(lia)) as Hp.
    destruct s1; cbn [signed cond_Zopp]; symmetry;
      [apply Z.compare_lt_iff | apply Z.compare_gt_iff]; nia.
  - pose proof (bounded_inv _ _ H1) as (He1 & _ & _).
    pose proof (bounded_inv _ _ H2) as (He2 & _ & _).
    pose proof (Z.pow_pos_nonneg 2 (e1 + 1074) ltac:(lia) ltac:(lia)) as Hp1.
    pose proof (Z.pow_pos_nonneg 2 (e2 + 1074) ltac:(lia) ltac:(lia)) as Hp2.
    destruct s1, s2; cbn [signed cond_Zopp].
    + transitivity
        (CompOpp match e1 ?= e2 with
                 | Lt => Lt
                 | Gt => Gt
                 | Eq => Pos.compare_cont Eq m1 m2
                 end); [now destruct (e1 ?= e2)|].
      rewrite (SFcompare_pos _ _ _ _ H1 H2).
      rewrite !Z.mul_opp_l, Z.compare_opp. symmetry. apply Z.compare_antisym.
    + symmetry. apply Z.compare_lt_iff. nia.
    + symmetry. apply Z.compare_gt_iff. nia.
    + apply SFcompare_pos; assumption.
Qed.

Lemma SFcompare_F2Q x y :
  valid64 x -> valid64 y -> is_number x = true -> is_number y = true ->
  SFcompare x y = Some (F2Q x ?= F2Q y)%Q.
Proof.
  intros Hx Hy Nx Ny. rewrite (SFcompare_ulps x y Hx Hy Nx Ny). f_equal.
  rewrite (Qcompare_comp _ _ (F2Q_ulps x Hx Nx) _ _ (F2Q_ulps y Hy Ny)).
  unfold Qcompare; cbn [Qnum Qden].
  apply Zmult_compare_compat_r. reflexivity.
Qed.

(** [x > t] at a threshold [t] that holds the number [q]. *)
Lemma fgt_above x t q :
  valid64 x -> valid64 t -> is_number t = true -> (F2Q t == q)%Q ->
  Py.fgt x t = true <-> above x q.
Proof.
  intros Hx Ht Nt Hq. unfold Py.fgt, SFltb.
  destruct (is_number x) eqn:Nx.
  - rewrite (SFcompare_F2Q t x Ht Hx Nt Nx), Hq.
    assert (Ha : above x q <-> (q < F2Q x)%Q) by (destruct x; try discriminate; reflexivity).
    rewrite Ha, Qlt_alt. destruct (q ?= F2Q x)%Q; split; congruence.
  - destruct x as [s | s | | s m e]; try discriminate.
    + destruct t; try discriminate; destruct s; cbn; split; congruence.
    + destruct t; cbn; split; (discriminate || contradiction).
Qed.

Lemma at_most_not_above x q r :
  (q <= r)%Q -> at_most x q -> ~ above x r.
Proof.
  intros Hqr; destruct x as [s | s | | s m e]; cbn [at_most above]; intros Hle Hgt.
  - apply (Qlt_irrefl r). eapply Qlt_le_trans; [exact Hgt|]. eapply Qle_trans; eassumption.
  - congruence.
  - exact Hle.
  - apply (Qlt_irrefl r). eapply Qlt_le_trans; [exact Hgt|]. eapply Qle_trans; eassumption.
Qed.

Lemma threshold_240 :
  valid64 (Py.float_of_Z 240) /\ is_number (Py.float_of_Z 240) = true /\
  (F2Q (Py.float_of_Z 240) == 240)%Q.
Proof. repeat split. Qed.

Lemma threshold_200 :
  valid64 (Py.float_of_Z 200) /\ is_number (Py.float_of_Z 200) = true /\
  (F2Q (Py.float_of_Z 200) == 200)%Q.
Proof. repeat split. Qed.

(** The cholesterol rule, read on the number the float stands for. *)
Lemma cholesterol_rule_spec c :
  valid64 c ->
  (above c 240 -> status (Evaluator.cholesterol_rule c) = "High") /\
  (above c 200 -> at_most c 240 ->
     status (Evaluator.cholesterol_rule c) = "Borderline") /\
  (at_most c 200 -> status (Evaluator.cholesterol_rule c) = "Normal").
Proof.
  intros Hc.
  destruct threshold_240 as (V240 & N240 & Q240).
  destruct threshold_200 as (V200 & N200 & Q200).
  pose proof (fgt_above c _ _ Hc V240 N240 Q240) as H240.
  pose proof (fgt_above c _ _ Hc V200 N200 Q200) as H200.
  unfold Evaluator.cholesterol_rule.
  repeat split.
  - intros Ha. apply H240 in Ha. now rewrite Ha.
  - intros Ha Hm. apply H200 in Ha. rewrite Ha.
    destruct (Py.fgt c (Py.float_of_Z 240)) eqn:E; [|reflexivity].
    exfalso. apply (at_most_not_above c 240 240); [apply Qle_refl | exact Hm | now apply H240].
  - intros Hm.
    destruct (Py.fgt c (Py.float_of_Z 240)) eqn:E.
    { exfalso. apply (at_most_not_above c 200 240); [discriminate | exact Hm | now apply H240]. }
    destruct (Py.fgt c (Py.float_of_Z 200)) eqn:E'; [|reflexivity].
    exfalso. apply (at_most_not_above c 200 200); [apply Qle_refl | exact Hm | now apply H200].
Qed.
End FloatOrder.

(* ===================================================================== *)
(** * The evaluation, block by block *)
(* ===================================================================== *)

Section EvaluateLemmas.
Context `{Py.Builtins}.

Lemma hemoglobin_block_eq raw result :
  Evaluator.hemoglobin_block raw result =
  Py.Ok (fst (Entry.hemoglobin raw),
         dict_set "Hemoglobin" (snd (Entry.hemoglobin raw)) result).
Proof.
  unfold Evaluator.hemoglobin_block, Entry.hemoglobin.
  destruct (Py.py_float raw); reflexivity.
Qed.

Lemma sugar_block_eq raw result :
  Evaluator.sugar_block raw result =
  Py.Ok (fst (Entry.sugar raw),
         dict_set "Fasting Sugar" (snd (Entry.sugar raw)) result).
Proof.
  unfold Evaluator.sugar_block, Entry.sugar.
  destruct (Py.py_float raw); reflexivity.
Qed.

Lemma blood_pressure_block_eq raw_sys raw_dia result :
  Evaluator.blood_pressure_block raw_sys raw_dia result =
  Py.Ok (fst (Entry.blood_pressure raw_sys raw_dia),
         dict_set "Blood Pressure" (snd (Entry.blood_pressure raw_sys raw_dia))
           result).
Proof.
  unfold Evaluator.blood_pressure_block, Entry.blood_pressure.
  destruct (Py.py_int raw_sys); [destruct (Py.py_int raw_dia)|]; reflexivity.
Qed.

Lemma cholesterol_block_eq raw result :
  Evaluator.cholesterol_block raw result =
  Py.Ok (fst (Entry.cholesterol raw),
         dict_set "Cholesterol" (snd (Entry.cholesterol raw)) result).
Proof.
  unfold Evaluator.cholesterol_block, Entry.cholesterol.
  destruct (Py.py_float raw); reflexivity.
Qed.

Lemma truediv_lit_100 x : Py.truediv x Py.lit_100 = Py.Ok (Py.fdiv x Py.lit_100).
Proof. reflexivity. Qed.

(** On entry [bmi_value] is [None], as [index] initialises it. *)
Lemma bmi_block_eq raw_h raw_w result :
  Evaluator.bmi_block raw_h raw_w None result =
  Py.Ok (fst (Entry.bmi raw_h raw_w),
         dict_set "BMI" (snd (Entry.bmi raw_h raw_w)) result).
Proof.
  unfold Evaluator.bmi_block, Entry.bmi, Entry.height_m_squared.
  destruct (Py.py_float raw_h) as [h|]; [|reflexivity].
  destruct (Py.py_float raw_w) as [w|]; [|reflexivity].
  cbn [mbind outcome_bind Py.bind]. rewrite truediv_lit_100.
  cbn [mbind outcome_bind Py.bind]. unfold Py.truediv.
  destruct (Py.is_zero _); reflexivity.
Qed.

Lemma evaluate_eq raw :
  Evaluator.evaluate raw [] None None =
  Py.Ok {|
    Evaluator.result := final_result raw;
    Evaluator.overall_summary := Evaluator.summarize (final_result raw) None;
    Evaluator.hb := fst (Entry.hemoglobin (Evaluator.hb_raw raw));
    Evaluator.sugar := fst (Entry.sugar (Evaluator.sugar_raw raw));
    Evaluator.bp_sys :=
      fst (fst (Entry.blood_pressure (Evaluator.bp_sys_raw raw)
                  (Evaluator.bp_dia_raw raw)));
    Evaluator.bp_dia :=
      snd (fst (Entry.blood_pressure (Evaluator.bp_sys_raw raw)
                  (Evaluator.bp_dia_raw raw)));
    Evaluator.chol := fst (Entry.cholesterol (Evaluator.chol_raw raw));
    Evaluator.height_cm :=
      fst (fst (fst (Entry.bmi (Evaluator.height_raw raw)
                       (Evaluator.weight_raw raw))));
    Evaluator.weight_kg :=
      snd (fst (fst (Entry.bmi (Evaluator.height_raw raw)
                       (Evaluator.weight_raw raw))));
    Evaluator.bmi_value :=
      snd (fst (Entry.bmi (Evaluator.height_raw raw)
                  (Evaluator.weight_raw raw)))
  |}.
Proof.
  unfold Evaluator.evaluate, final_result.
  rewrite hemoglobin_block_eq. cbn [mbind outcome_bind Py.bind].
  rewrite sugar_block_eq. cbn [mbind outcome_bind Py.bind].
  rewrite blood_pressure_block_eq. cbn [mbind outcome_bind Py.bind].
  destruct (Entry.blood_pressure _ _) as [[bs bd] bc].
  rewrite cholesterol_block_eq. cbn [mbind outcome_bind Py.bind].
  rewrite bmi_block_eq. cbn [mbind outcome_bind Py.bind].
  destruct (Entry.bmi _ _) as [[[h w] b] c].
  reflexivity.
Qed.
End EvaluateLemmas.

(* ===================================================================== *)
(** * The string tests and the rollup *)
(* ===================================================================== *)

Section Rollup.

Lemma app_cons c (a b : string) : String c a +:+ b = String c (a +:+ b).
Proof. reflexivity. Qed.

Lemma app_nil (b : string) : "" +:+ b = b.
Proof. reflexivity. Qed.

Lemma prefix_begins_with p s :
  String.prefix p s = true <-> Spec.begins_with p s.
Proof.
  unfold Spec.begins_with. revert s.
  induction p as [|a p IH]; intros s.
  - split; [intros _; now exists s | intros _; now destruct s].
  - destruct s as [|b s]; cbn [String.prefix].
    + split; [discriminate | intros [t Ht]; rewrite app_cons in Ht; discriminate].
    + destruct (ascii_dec a b) as [-> | Hne].
      * rewrite IH. split; intros [t Ht]; exists t; rewrite app_cons in *; congruence.
      * split; [discriminate | intros [t Ht]; rewrite app_cons in Ht; congruence].
Qed.

Lemma contains_has p s : Py.contains p s = true <-> Spec.has p s.
Proof.
  unfold Spec.has. split.
  - induction s as [|c s IH]; cbn [Py.contains]; intros Hc;
      apply orb_prop in Hc as [Hp | Hr]; try discriminate.
    + apply prefix_begins_with in Hp as [t Ht]. now exists "", t.
    + apply prefix_begins_with in Hp as [t Ht]. now exists "", t.
    + destruct (IH Hr) as (a & b & ->). now exists (String c a), b.
  - intros (a & b & ->). induction a as [|c a IH].
    + rewrite app_nil.
      assert (Hp : String.prefix p (p +:+ b) = true)
        by (apply prefix_begins_with; now exists b).
      destruct (p +:+ b); cbn [Py.contains]; now rewrite Hp.
    + rewrite app_cons. cbn [Py.contains]. rewrite IH. apply orb_true_r.
Qed.

Lemma is_error_spec s : Evaluator.is_error s = true <-> Spec.error s.
Proof.
  unfold Evaluator.is_error, Spec.error, Py.startswith.
  now rewrite orb_true_iff, String.eqb_eq, prefix_begins_with.
Qed.

Lemma is_abnormal_spec s : Evaluator.is_abnormal s = true <-> Spec.abnormal s.
Proof.
  unfold Evaluator.is_abnormal, Spec.abnormal, Py.startswith.
  rewrite !orb_true_iff, String.eqb_eq, !prefix_begins_with, !contains_has.
  tauto.
Qed.

(** ** Counting *)

Section Counting.
Variable P : string -> Prop.
Variable p : string -> bool.
Hypothesis p_spec : forall s, p s = true <-> P s.

Lemma count_filter l : Spec.count P l (length (List.filter p l)).
Proof.
  induction l as [|s l IH]; cbn [List.filter].
  - constructor.
  - destruct (p s) eqn:E.
    + cbn [length]. apply Spec.count_hit; [now apply p_spec | exact IH].
    + apply Spec.count_miss; [|exact IH].
      intros HP. apply p_spec in HP. congruence.
Qed.

Lemma count_functional l n m :
  Spec.count P l n -> Spec.count P l m -> n = m.
Proof.
  intros Hn. revert m.
  induction Hn as [| s l n Hs _ IH | s l n Hs _ IH]; intros m Hm;
    inversion Hm; subst; try contradiction; auto.
Qed.

Lemma filter_length_perm (l l' : list string) :
  Permutation l l' -> length (List.filter p l) = length (List.filter p l').
Proof.
  induction 1 as [| x l l' _ IH | x y l | l l' l'' _ IH1 _ IH2];
    cbn [List.filter].
  - reflexivity.
  - destruct (p x); cbn [length]; congruence.
  - destruct (p x), (p y); reflexivity.
  - congruence.
Qed.

Lemma existsb_perm (l l' : list string) :
  Permutation l l' -> existsb p l = existsb p l'.
Proof.
  intros Hperm. apply eq_true_iff_eq. rewrite !existsb_exists.
  split; intros (x & Hin & Hx); exists x; split; auto.
  - eapply Permutation_in; eassumption.
  - eapply Permutation_in; [symmetry|]; eassumption.
Qed.
End Counting.

(** The counting loop. *)
Lemma count_abnormal_filter l :
  Evaluator.count_abnormal l =
  Z.of_nat (length (List.filter Evaluator.is_abnormal l)).
Proof.
  unfold Evaluator.count_abnormal.
  enough (Hgen : forall a,
    fold_left (fun n s => if Evaluator.is_abnormal s then n + 1 else n) l a =
    a + Z.of_nat (length (List.filter Evaluator.is_abnormal l)))
    by (rewrite Hgen; lia).
  induction l as [|s l IH]; intros a; cbn [fold_left List.filter].
  - cbn. lia.
  - rewrite IH. destruct (Evaluator.is_abnormal s); cbn [length]; lia.
Qed.

Lemma summary_of_label l : status (Evaluator.summary_of l) = label_of l.
Proof.
  unfold Evaluator.summary_of, label_of.
  destruct (existsb Evaluator.is_error l); [reflexivity|].
  rewrite count_abnormal_filter.
  destruct (length (List.filter Evaluator.is_abnormal l)) as [|[|[|[|n]]]];
    try reflexivity.
  cbv zeta.
  replace (Z.of_nat (S (S (S (S n)))) =? 0) with false by (symmetry; apply Z.eqb_neq; lia).
  replace (Z.of_nat (S (S (S (S n)))) =? 1) with false by (symmetry; apply Z.eqb_neq; lia).
  replace (Z.of_nat (S (S (S (S n)))) <=? 3) with false by (symmetry; apply Z.leb_gt; lia).
  rewrite andb_false_r. reflexivity.
Qed.

Lemma label_of_rollup l : Spec.rollup l (label_of l).
Proof.
  unfold label_of. destruct (existsb Evaluator.is_error l) eqn:E.
  - apply Spec.rollup_error. apply List.Exists_exists.
    apply existsb_exists in E as (s & Hin & Hs).
    exists s. split; [exact Hin | now apply is_error_spec].
  - apply Spec.rollup_count.
    + apply List.Forall_forall. intros s Hin Herr.
      apply is_error_spec in Herr.
      assert (existsb Evaluator.is_error l = true)
        by (apply existsb_exists; eauto).
      congruence.
    + apply (count_filter _ _ is_abnormal_spec).
Qed.

Lemma rollup_functional l a b : Spec.rollup l a -> Spec.rollup l b -> a = b.
Proof.
  intros Ha Hb. destruct Ha as [Hex | n Hall Hn]; destruct Hb as [Hex' | m Hall' Hm].
  - reflexivity.
  - apply List.Exists_exists in Hex as (s & Hin & Hs).
    rewrite List.Forall_forall in Hall'. now destruct (Hall' s Hin).
  - apply List.Exists_exists in Hex' as (s & Hin & Hs).
    rewrite List.Forall_forall in Hall. now destruct (Hall s Hin).
  - f_equal. eapply count_functional; eassumption.
Qed.

Lemma summary_of_perm l l' :
  Permutation l l' -> Evaluator.summary_of l' = Evaluator.summary_of l.
Proof.
  intros Hperm. unfold Evaluator.summary_of.
  rewrite !count_abnormal_filter.
  rewrite (existsb_perm Evaluator.is_error _ _ Hperm).
  rewrite (filter_length_perm Evaluator.is_abnormal _ _ Hperm).
  reflexivity.
Qed.

Lemma summarize_perm (result result' : dict) o :
  Permutation result result' ->
  Evaluator.summarize result' o = Evaluator.summarize result o.
Proof.
  intros Hperm.
  destruct result as [|x r].
  - apply Permutation_nil in Hperm. now subst.
  - destruct result' as [|x' r'].
    + symmetry in Hperm. apply Permutation_nil in Hperm. discriminate.
    + cbn [Evaluator.summarize]. f_equal. apply summary_of_perm.
      unfold values. now do 2 apply Permutation_map.
Qed.

(** A non-empty dict is summarised by the rollup of its statuses. *)
Lemma summarize_rollup (result : dict) o :
  result <> [] ->
  exists label advice,
    Evaluator.summarize result o = Some (label, advice) /\
    Spec.rollup (statuses result) label.
Proof.
  intros Hne. destruct result as [|x r]; [congruence|].
  exists (label_of (statuses (x :: r))), (snd (Evaluator.summary_of (statuses (x :: r)))).
  split.
  - cbn [Evaluator.summarize]. rewrite <- summary_of_label.
    unfold status, statuses. now destruct (Evaluator.summary_of _).
  - apply label_of_rollup.
Qed.
End Rollup.

(* ===================================================================== *)
(** * The handler [index] *)
(* ===================================================================== *)

Section IndexLemmas.
Context `{Py.Builtins}.

Lemma index_post req sess now d :
  method req = POST ->
  exists ev,
    Evaluator.evaluate (Evaluator.read_form (form req)) [] None None = Py.Ok ev /\
    Evaluator.result ev = final_result (Evaluator.read_form (form req)) /\
    Evaluator.overall_summary ev =
      Evaluator.summarize (Evaluator.result ev) None /\
    index req sess now d =
    Py.Ok ({| page_result := Evaluator.result ev;
              page_overall_summary := Evaluator.overall_summary ev;
              page_user_name := session_user_name sess;
              page_user_id := session_user_id sess |},
           gate ev (session_user_id sess) now d).
Proof.
  intros Hm. eexists. split; [apply evaluate_eq|].
  split; [reflexivity|]. split; [reflexivity|].
  unfold index, get_current_user. rewrite Hm, evaluate_eq. reflexivity.
Qed.

Lemma index_get req sess now d :
  method req = GET ->
  index req sess now d =
  Py.Ok ({| page_result := []; page_overall_summary := None;
            page_user_name := session_user_name sess;
            page_user_id := session_user_id sess |}, d).
Proof. intros Hm. unfold index, get_current_user. now rewrite Hm. Qed.

Lemma not_None_is_Some {A} (x : option A) : not_None x = true <-> is_Some x.
Proof.
  destruct x; cbn; split; intros Hx; eauto; try discriminate.
  now apply is_Some_None in Hx.
Qed.


Lemma gate_incomplete ev owner now d :
  ~ complete ev -> gate ev owner now d = d.
Proof.
  unfold complete, gate. rewrite <- !not_None_is_Some. intros Hn.
  destruct (all _) eqn:E; [|reflexivity].
  exfalso. apply Hn. cbn in E.
  repeat (apply andb_prop in E as [? E]). tauto.
Qed.


Lemma final_result_nonempty raw : final_result raw <> [].
Proof. discriminate. Qed.
End IndexLemmas.

(* ===================================================================== *)
(** * The overall summary *)
(* ===================================================================== *)

(** C1. Whenever [index] has produced at least one classification, the
    overall summary it renders carries the label of the reference rollup of
    the statuses: "Data Issue" as soon as one status is or begins with
    "Error", and otherwise the label for the number of abnormal statuses
    (0, 1, 2 to 3, 4 or more). The rollup relation has one label per list,
    and summarising the classifications in any other order gives the same
    summary. *)
Theorem overall_summary_is_rollup `{Py.Builtins} req sess now d :
  exists pg d',
    index req sess now d = Py.Ok (pg, d') /\
    (page_result pg <> [] ->
     exists label advice,
       page_overall_summary pg = Some (label, advice) /\
       Spec.rollup (statuses (page_result pg)) label /\
       (forall label',
          Spec.rollup (statuses (page_result pg)) label' -> label' = label) /\
       (forall result',
          Permutation (page_result pg) result' ->
          Evaluator.summarize result' None = page_overall_summary pg)).
Proof.
  destruct (method req) eqn:Hm.
  - do 2 eexists. split; [now apply index_get|]. cbn. congruence.
  - destruct (index_post req sess now d Hm) as (ev & _ & _ & Hsum & Hidx).
    do 2 eexists. split; [exact Hidx|]. cbn [page_result page_overall_summary].
    intros Hne. rewrite Hsum.
    destruct (summarize_rollup (Evaluator.result ev) None Hne)
      as (label & advice & Hs & Hr).
    exists label, advice. split; [exact Hs|]. split; [exact Hr|]. split.
    + intros label' Hr'. eapply rollup_functional; eassumption.
    + intros result' Hperm. now apply summarize_perm.
Qed.

(** The claim at a form whose hemoglobin, sugar and cholesterol are out of
    range: three abnormal statuses, "Needs Attention". *)
Lemma overall_summary_is_rollup_witness :
  exists pg d',
    index (H := Decimal.builtins)
      (Sample.post "10" "150" "120" "80" "250" "170" "65")
      Sample.guest Sample.now Sample.empty_db = Py.Ok (pg, d') /\
    page_result pg <> [] /\
    exists advice,
      page_overall_summary pg = Some ("Needs Attention", advice) /\
      Spec.rollup (statuses (page_result pg)) "Needs Attention".
Proof.
  destruct (overall_summary_is_rollup (H := Decimal.builtins)
              (Sample.post "10" "150" "120" "80" "250" "170" "65")
              Sample.guest Sample.now Sample.empty_db)
    as (pg & d' & Hidx & Hroll).
  exists pg, d'. split; [exact Hidx|].
  assert (Hne : page_result pg <> []).
  { vm_compute in Hidx. injection Hidx as <- _. discriminate. }
  split; [exact Hne|].
  destruct (Hroll Hne) as (label & advice & Hs & Hr & _).
  assert (Hl : label = "Needs Attention").
  { vm_compute in Hidx. injection Hidx as <- _. cbn in Hs. congruence. }
  subst label. exists advice. split; assumption.
Defined.

(** C8. The page carries an overall summary exactly when it carries at
    least one classification. The summary is absent only for a request
    that is not a POST: no form field is read then, so the page is the same
    whatever the form holds, and the store is left alone. Every POST, even
    of an empty form, has its summary and its five classifications. *)
Theorem overall_summary_present_iff `{Py.Builtins} req sess now d :
  exists pg d',
    index req sess now d = Py.Ok (pg, d') /\
    (is_Some (page_overall_summary pg) <-> page_result pg <> []) /\
    (page_overall_summary pg = None ->
     method req = GET /\ page_result pg = [] /\ d' = d /\
     forall f,
       index {| method := method req; form := f |} sess now d = Py.Ok (pg, d')) /\
    (method req = POST ->
     is_Some (page_overall_summary pg) /\ keys (page_result pg) = metric_names).
Proof.
  destruct (method req) eqn:Hm.
  - do 2 eexists. split; [now apply index_get|].
    cbn [page_result page_overall_summary].
    split; [|split; [|discriminate]].
    + split; [intros Hs; now apply is_Some_None in Hs | congruence].
    + intros _. do 3 (split; [reflexivity|]). intros f. now apply index_get.
  - destruct (index_post req sess now d Hm) as (ev & _ & Hres & Hsum & Hidx).
    do 2 eexists. split; [exact Hidx|].
    cbn [page_result page_overall_summary]. rewrite Hsum, Hres.
    split; [|split; [discriminate | intros _; split; [eauto | reflexivity]]].
    split; [discriminate | eauto].
Qed.

(* ===================================================================== *)
(** * Determinism *)
(* ===================================================================== *)



Section CompleteLemmas.
Context `{Py.Builtins}.

End CompleteLemmas.

(* ===================================================================== *)
(** * The persistence gate *)
(* ===================================================================== *)



(* ===================================================================== *)
(** * The threshold rules *)
(* ===================================================================== *)

Section Thresholds.
Context `{Py.Builtins}.

(** The status [evaluate] files under a metric name. *)
Lemma evaluate_statuses raw :
  exists ev,
    Evaluator.evaluate raw [] None None = Py.Ok ev /\
    dict_get "Hemoglobin" (Evaluator.result ev) =
      Some (snd (Entry.hemoglobin (Evaluator.hb_raw raw))) /\
    dict_get "Fasting Sugar" (Evaluator.result ev) =
      Some (snd (Entry.sugar (Evaluator.sugar_raw raw))) /\
    dict_get "Blood Pressure" (Evaluator.result ev) =
      Some (snd (Entry.blood_pressure (Evaluator.bp_sys_raw raw)
                   (Evaluator.bp_dia_raw raw))) /\
    dict_get "Cholesterol" (Evaluator.result ev) =
      Some (snd (Entry.cholesterol (Evaluator.chol_raw raw))) /\
    dict_get "BMI" (Evaluator.result ev) =
      Some (snd (Entry.bmi (Evaluator.height_raw raw)
                   (Evaluator.weight_raw raw))).
Proof. eexists. split; [apply evaluate_eq|]. repeat split. Qed.

Lemma blood_pressure_rule_spec bp_sys bp_dia :
  (bp_sys < 90 \/ bp_dia < 60 ->
   status (Evaluator.blood_pressure_rule bp_sys bp_dia) = "Low") /\
  (90 <= bp_sys -> 60 <= bp_dia -> bp_sys > 140 \/ bp_dia > 90 ->
   status (Evaluator.blood_pressure_rule bp_sys bp_dia) = "High") /\
  (90 <= bp_sys <= 140 -> 60 <= bp_dia <= 90 ->
   status (Evaluator.blood_pressure_rule bp_sys bp_dia) = "Normal").
Proof.
  unfold Evaluator.blood_pressure_rule.
  destruct (Z.ltb_spec bp_sys 90), (Z.ltb_spec bp_dia 60);
    cbn [orb]; try (repeat split; intros; (reflexivity || lia)).
  rewrite !Z.gtb_ltb.
  destruct (Z.ltb_spec 140 bp_sys), (Z.ltb_spec 90 bp_dia);
    cbn [orb]; repeat split; intros; (reflexivity || lia).
Qed.
End Thresholds.

(** C5. For blood-pressure fields that read as the integers [bp_sys] and
    [bp_dia], the status filed under "Blood Pressure" is "Low" when
    [bp_sys < 90] or [bp_dia < 60], whatever else holds (so 200/50 is
    "Low"); failing that it is "High" when [bp_sys > 140] or [bp_dia > 90];
    and it is "Normal" on the remaining pairs, the corners 90/60 and 140/90
    included. *)
Theorem blood_pressure_thresholds `{Py.Builtins} raw bp_sys bp_dia :
  Py.py_int (Evaluator.bp_sys_raw raw) = Py.Ok bp_sys ->
  Py.py_int (Evaluator.bp_dia_raw raw) = Py.Ok bp_dia ->
  exists ev c,
    Evaluator.evaluate raw [] None None = Py.Ok ev /\
    dict_get "Blood Pressure" (Evaluator.result ev) = Some c /\
    (bp_sys < 90 \/ bp_dia < 60 -> status c = "Low") /\
    (90 <= bp_sys -> 60 <= bp_dia -> bp_sys > 140 \/ bp_dia > 90 ->
     status c = "High") /\
    (90 <= bp_sys <= 140 -> 60 <= bp_dia <= 90 -> status c = "Normal") /\
    status (Evaluator.blood_pressure_rule 200 50) = "Low" /\
    status (Evaluator.blood_pressure_rule 90 60) = "Normal" /\
    status (Evaluator.blood_pressure_rule 140 90) = "Normal".
Proof.
  intros Hs Hd.
  destruct (evaluate_statuses raw) as (ev & Hev & _ & _ & Hbp & _).
  unfold Entry.blood_pressure in Hbp. rewrite Hs, Hd in Hbp. cbn [snd] in Hbp.
  exists ev, (Evaluator.blood_pressure_rule bp_sys bp_dia).
  split; [exact Hev|]. split; [exact Hbp|].
  destruct (blood_pressure_rule_spec bp_sys bp_dia) as (Hlow & Hhigh & Hnormal).
  repeat split; assumption.
Qed.

(** The rule at 200/50: both the Low and the High tests hold, Low wins. *)
Lemma blood_pressure_thresholds_witness :
  Py.py_int (H := Decimal.builtins)
    (Evaluator.bp_sys_raw (Sample.input "14" "100" "200" "50" "180" "170" "65"))
  = Py.Ok 200 /\
  Py.py_int (H := Decimal.builtins)
    (Evaluator.bp_dia_raw (Sample.input "14" "100" "200" "50" "180" "170" "65"))
  = Py.Ok 50 /\
  exists ev c,
    Evaluator.evaluate (H := Decimal.builtins)
      (Sample.input "14" "100" "200" "50" "180" "170" "65") [] None None
    = Py.Ok ev /\
    dict_get "Blood Pressure" (Evaluator.result ev) = Some c /\
    status c = "Low".
Proof.
  split; [reflexivity|]. split; [reflexivity|].
  destruct (blood_pressure_thresholds (H := Decimal.builtins)
              (Sample.input "14" "100" "200" "50" "180" "170" "65") 200 50
              eq_refl eq_refl)
    as (ev & c & Hev & Hc & Hlow & _).
  exists ev, c. split; [exact Hev|]. split; [exact Hc|].
  apply Hlow. right. reflexivity.
Defined.

(** C4. For a cholesterol field that reads as the float [c], the status
    filed under "Cholesterol" is "High" when [c] is above 240, "Borderline"
    when it is above 200 and at most 240, and "Normal" when it is at most
    200, the comparisons being those of the numbers, infinities included. *)
Theorem cholesterol_thresholds `{Py.Builtins} raw c :
  Py.py_float (Evaluator.chol_raw raw) = Py.Ok c ->
  Value.valid64 c ->
  exists ev cl,
    Evaluator.evaluate raw [] None None = Py.Ok ev /\
    Evaluator.chol ev = Some c /\
    dict_get "Cholesterol" (Evaluator.result ev) = Some cl /\
    (Value.above c 240 -> status cl = "High") /\
    (Value.above c 200 -> Value.at_most c 240 -> status cl = "Borderline") /\
    (Value.at_most c 200 -> status cl = "Normal").
Proof.
  intros Hc Hv.
  destruct (evaluate_statuses raw) as (ev & Hev & _ & _ & _ & Hch & _).
  pose proof Hev as Hev'. rewrite evaluate_eq in Hev'. injection Hev' as Hev'.
  unfold Entry.cholesterol in Hch. rewrite Hc in Hch. cbn [snd] in Hch.
  exists ev, (Evaluator.cholesterol_rule c).
  split; [exact Hev|]. split.
  { rewrite <- Hev'. cbn [Evaluator.chol]. unfold Entry.cholesterol.
    now rewrite Hc. }
  split; [exact Hch|]. now apply cholesterol_rule_spec.
Qed.

(** The three bands at the fields "241", "201" and "200". *)
Lemma cholesterol_thresholds_witness :
  (exists ev cl,
     Evaluator.evaluate (H := Decimal.builtins)
       (Sample.input "14" "100" "120" "80" "241" "170" "65") [] None None
     = Py.Ok ev /\
     dict_get "Cholesterol" (Evaluator.result ev) = Some cl /\
     status cl = "High") /\
  (exists ev cl,
     Evaluator.evaluate (H := Decimal.builtins)
       (Sample.input "14" "100" "120" "80" "201" "170" "65") [] None None
     = Py.Ok ev /\
     dict_get "Cholesterol" (Evaluator.result ev) = Some cl /\
     status cl = "Borderline") /\
  (exists ev cl,
     Evaluator.evaluate (H := Decimal.builtins)
       (Sample.input "14" "100" "120" "80" "200" "170" "65") [] None None
     = Py.Ok ev /\
     dict_get "Cholesterol" (Evaluator.result ev) = Some cl /\
     status cl = "Normal").
Proof.
  split; [|split].
  - destruct (cholesterol_thresholds (H := Decimal.builtins)
                (Sample.input "14" "100" "120" "80" "241" "170" "65")
                (Py.float_of_Z 241) eq_refl eq_refl)
      as (ev & cl & Hev & _ & Hcl & Hhigh & _).
    exists ev, cl. split; [exact Hev|]. split; [exact Hcl|].
    apply Hhigh. reflexivity.
  - destruct (cholesterol_thresholds (H := Decimal.builtins)
                (Sample.input "14" "100" "120" "80" "201" "170" "65")
                (Py.float_of_Z 201) eq_refl eq_refl)
      as (ev & cl & Hev & _ & Hcl & _ & Hborder & _).
    exists ev, cl. split; [exact Hev|]. split; [exact Hcl|].
    apply Hborder; [reflexivity | discriminate].
  - destruct (cholesterol_thresholds (H := Decimal.builtins)
                (Sample.input "14" "100" "120" "80" "200" "170" "65")
                (Py.float_of_Z 200) eq_refl eq_refl)
      as (ev & cl & Hev & _ & Hcl & _ & _ & Hnormal).
    exists ev, cl. split; [exact Hev|]. split; [exact Hcl|].
    apply Hnormal. discriminate.
Defined.

(** C3, as stated, fails: a cholesterol field "240" reads as the number
    240, and the status filed under "Cholesterol" is not "Normal". *)
Lemma cholesterol_240_is_not_normal :
  exists ev cl,
    Evaluator.evaluate (H := Decimal.builtins)
      (Sample.input "14" "100" "120" "80" "240" "170" "65") [] None None
    = Py.Ok ev /\
    Evaluator.chol ev = Some (Py.float_of_Z 240) /\
    (Value.F2Q (Py.float_of_Z 240) == 240)%Q /\
    dict_get "Cholesterol" (Evaluator.result ev) = Some cl /\
    status cl <> "Normal".
Proof.
  eexists. eexists. split; [vm_compute; reflexivity|].
  cbn [Evaluator.chol Evaluator.result dict_get String.eqb Ascii.eqb Bool.eqb fst].
  split; [reflexivity|]. split; [reflexivity|]. split; [reflexivity|].
  discriminate.
Qed.

(** C3, amended. For a cholesterol field that reads as a float whose value
    is exactly 240, the status filed under "Cholesterol" is "Borderline":
    240 is not above 240, so it is not "High", and it is above 200. *)
Theorem cholesterol_240_is_borderline `{Py.Builtins} raw c :
  Py.py_float (Evaluator.chol_raw raw) = Py.Ok c ->
  Value.valid64 c ->
  Value.is_number c = true ->
  (Value.F2Q c == 240)%Q ->
  exists ev cl,
    Evaluator.evaluate raw [] None None = Py.Ok ev /\
    dict_get "Cholesterol" (Evaluator.result ev) = Some cl /\
    status cl = "Borderline".
Proof.
  intros Hc Hv Hn Hq.
  destruct (evaluate_statuses raw) as (ev & Hev & _ & _ & _ & Hch & _).
  unfold Entry.cholesterol in Hch. rewrite Hc in Hch. cbn [snd] in Hch.
  exists ev, (Evaluator.cholesterol_rule c).
  split; [exact Hev|]. split; [exact Hch|].
  destruct (cholesterol_rule_spec c Hv) as (_ & Hborder & _).
  apply Hborder; destruct c; try discriminate;
    cbn [Value.above Value.at_most]; rewrite Hq; (reflexivity || discriminate).
Qed.

(** The amended claim at the field "240.0". *)
Lemma cholesterol_240_is_borderline_witness :
  Py.py_float (H := Decimal.builtins)
    (Evaluator.chol_raw (Sample.input "14" "100" "120" "80" "240.0" "170" "65"))
  = Py.Ok (Py.float_of_Z 240) /\
  Value.valid64 (Py.float_of_Z 240) /\
  (Value.F2Q (Py.float_of_Z 240) == 240)%Q /\
  exists ev cl,
    Evaluator.evaluate (H := Decimal.builtins)
      (Sample.input "14" "100" "120" "80" "240.0" "170" "65") [] None None
    = Py.Ok ev /\
    dict_get "Cholesterol" (Evaluator.result ev) = Some cl /\
    status cl = "Borderline".
Proof.
  split; [reflexivity|]. split; [reflexivity|]. split; [reflexivity|].
  exact (cholesterol_240_is_borderline (H := Decimal.builtins)
           (Sample.input "14" "100" "120" "80" "240.0" "170" "65")
           (Py.float_of_Z 240) eq_refl eq_refl eq_refl eq_refl).
Defined.

(* ===================================================================== *)
(** * No exception leaves the evaluation *)
(* ===================================================================== *)

(** C6. For every combination of raw fields the evaluation completes
    without raising. Its dict holds the five metrics in order and its
    overall summary is present. What is filed for a metric, and the numbers
    kept for it, depend on that metric's own fields only; a field that
    [float] or [int] rejects, or that is missing, gives that metric its
    "Error" classification and no number. *)
Theorem evaluate_never_raises `{Py.Builtins} raw :
  exists ev,
    Evaluator.evaluate raw [] None None = Py.Ok ev /\
    keys (Evaluator.result ev) = metric_names /\
    is_Some (Evaluator.overall_summary ev) /\
    (* each metric from its own fields *)
    (Evaluator.hb ev, dict_get "Hemoglobin" (Evaluator.result ev)) =
      (let e := Entry.hemoglobin (Evaluator.hb_raw raw) in (fst e, Some (snd e))) /\
    (Evaluator.sugar ev, dict_get "Fasting Sugar" (Evaluator.result ev)) =
      (let e := Entry.sugar (Evaluator.sugar_raw raw) in (fst e, Some (snd e))) /\
    (Evaluator.bp_sys ev, Evaluator.bp_dia ev,
     dict_get "Blood Pressure" (Evaluator.result ev)) =
      (let e := Entry.blood_pressure (Evaluator.bp_sys_raw raw)
                  (Evaluator.bp_dia_raw raw) in (fst e, Some (snd e))) /\
    (Evaluator.chol ev, dict_get "Cholesterol" (Evaluator.result ev)) =
      (let e := Entry.cholesterol (Evaluator.chol_raw raw) in (fst e, Some (snd e))) /\
    (Evaluator.height_cm ev, Evaluator.weight_kg ev, Evaluator.bmi_value ev,
     dict_get "BMI" (Evaluator.result ev)) =
      (let e := Entry.bmi (Evaluator.height_raw raw) (Evaluator.weight_raw raw) in
       (fst e, Some (snd e))) /\
    (* a malformed field degrades its metric to "Error" *)
    (Py.raises (Py.py_float (Evaluator.hb_raw raw)) = true ->
     Evaluator.hb ev = None /\
     status <$> dict_get "Hemoglobin" (Evaluator.result ev) = Some "Error") /\
    (Py.raises (Py.py_float (Evaluator.sugar_raw raw)) = true ->
     Evaluator.sugar ev = None /\
     status <$> dict_get "Fasting Sugar" (Evaluator.result ev) = Some "Error") /\
    (Py.raises (Py.py_int (Evaluator.bp_sys_raw raw)) = true \/
     Py.raises (Py.py_int (Evaluator.bp_dia_raw raw)) = true ->
     Evaluator.bp_sys ev = None /\ Evaluator.bp_dia ev = None /\
     status <$> dict_get "Blood Pressure" (Evaluator.result ev) = Some "Error") /\
    (Py.raises (Py.py_float (Evaluator.chol_raw raw)) = true ->
     Evaluator.chol ev = None /\
     status <$> dict_get "Cholesterol" (Evaluator.result ev) = Some "Error") /\
    (Py.raises (Py.py_float (Evaluator.height_raw raw)) = true \/
     Py.raises (Py.py_float (Evaluator.weight_raw raw)) = true ->
     Evaluator.height_cm ev = None /\ Evaluator.weight_kg ev = None /\
     Evaluator.bmi_value ev = None /\
     status <$> dict_get "BMI" (Evaluator.result ev) = Some "Error").
Proof.
  eexists. split; [apply evaluate_eq|].
  destruct raw as [r1 r2 r3 r4 r5 r6 r7].
  cbn [Evaluator.result Evaluator.overall_summary Evaluator.hb Evaluator.sugar
       Evaluator.bp_sys Evaluator.bp_dia Evaluator.chol Evaluator.height_cm
       Evaluator.weight_kg Evaluator.bmi_value Evaluator.hb_raw
       Evaluator.sugar_raw Evaluator.bp_sys_raw Evaluator.bp_dia_raw
       Evaluator.chol_raw Evaluator.height_raw Evaluator.weight_raw].
  split; [reflexivity|]. split; [cbn; eauto|].
  unfold final_result.
  cbn [Evaluator.hb_raw Evaluator.sugar_raw Evaluator.bp_sys_raw
       Evaluator.bp_dia_raw Evaluator.chol_raw Evaluator.height_raw
       Evaluator.weight_raw dict_get String.eqb Ascii.eqb Bool.eqb].
  split; [reflexivity|]. split; [reflexivity|].
  split; [now destruct (Entry.blood_pressure r3 r4) as [[? ?] ?]|].
  split; [reflexivity|].
  split; [now destruct (Entry.bmi r6 r7) as [[[? ?] ?] ?]|].
  unfold Entry.hemoglobin, Entry.sugar, Entry.blood_pressure,
    Entry.cholesterol, Entry.bmi.
  repeat split.
  all: try (destruct (Py.py_float r1); [discriminate | reflexivity]).
  all: try (destruct (Py.py_float r2); [discriminate | reflexivity]).
  all: try (destruct (Py.py_float r5); [discriminate | reflexivity]).
  all: try (destruct (Py.py_int r3), (Py.py_int r4);
            cbn [Py.raises] in *; intuition discriminate || reflexivity).
  all: destruct (Py.py_float r6), (Py.py_float r7);
    cbn [Py.raises] in *; intuition discriminate || reflexivity.
Qed.

(** The evaluation of a form whose sugar and height are not numbers and
    whose diastolic field is missing: three "Error" entries, and the
    hemoglobin and cholesterol entries as if nothing else were wrong. *)
Lemma evaluate_never_raises_witness :
  exists ev,
    Evaluator.evaluate (H := Decimal.builtins)
      (Sample.input "14" "abc" "120" "" "250" "tall" "65") [] None None
    = Py.Ok ev /\
    map (fun kv => (fst kv, status (snd kv))) (Evaluator.result ev) =
      [ ("Hemoglobin", "Normal"); ("Fasting Sugar", "Error");
        ("Blood Pressure", "Error"); ("Cholesterol", "High"); ("BMI", "Error") ] /\
    status <$> Evaluator.overall_summary ev = Some "Data Issue".
Proof.
  destruct (evaluate_never_raises (H := Decimal.builtins)
              (Sample.input "14" "abc" "120" "" "250" "tall" "65"))
    as (ev & Hev & _).
  exists ev. split; [exact Hev|].
  vm_compute in Hev. injection Hev as <-. split; reflexivity.
Defined.

(* ===================================================================== *)
(** * A zero height *)
(* ===================================================================== *)

(** C10. When the height field reads as a zero of either sign and the
    weight field reads as any float, the division by the squared height
    raises [ZeroDivisionError], which the handler of the BMI block catches
    like a parse failure: "BMI" is filed as "Error", height, weight and BMI
    are absent, and a POST of such a form leaves the store unchanged. *)
Theorem zero_height_is_an_error `{Py.Builtins} raw s weight_kg :
  Py.py_float (Evaluator.height_raw raw) = Py.Ok (S754_zero s) ->
  Py.py_float (Evaluator.weight_raw raw) = Py.Ok weight_kg ->
  Py.truediv weight_kg (Entry.height_m_squared (S754_zero s)) =
    Py.Raise Py.ZeroDivisionError /\
  exists ev,
    Evaluator.evaluate raw [] None None = Py.Ok ev /\
    dict_get "BMI" (Evaluator.result ev) = Some Evaluator.bmi_error /\
    status Evaluator.bmi_error = "Error" /\
    Evaluator.height_cm ev = None /\
    Evaluator.weight_kg ev = None /\
    Evaluator.bmi_value ev = None /\
    forall req sess now d,
      method req = POST ->
      Evaluator.read_form (form req) = raw ->
      exists pg, index req sess now d = Py.Ok (pg, d).
Proof.
  intros Hh Hw. split; [reflexivity|].
  assert (Hbmi : Entry.bmi (Evaluator.height_raw raw) (Evaluator.weight_raw raw) =
                 (None, None, None, Evaluator.bmi_error)).
  { unfold Entry.bmi. rewrite Hh, Hw. reflexivity. }
  eexists. split; [apply evaluate_eq|].
  cbn [Evaluator.result Evaluator.height_cm Evaluator.weight_kg
       Evaluator.bmi_value].
  unfold final_result. rewrite Hbmi.
  do 5 (split; [reflexivity|]).
  intros req sess now d Hm Hraw.
  destruct (index_post req sess now d Hm) as (ev & Hev & _ & _ & Hidx).
  rewrite Hraw, evaluate_eq in Hev. injection Hev as <-.
  eexists. rewrite Hidx. f_equal. f_equal.
  apply gate_incomplete. unfold complete.
  cbn [Evaluator.bmi_value]. rewrite Hbmi. cbn [fst snd].
  intros (_ & _ & _ & _ & _ & _ & _ & Hs). now apply is_Some_None in Hs.
Qed.

(** A POST with height "0" and every other field in range. *)
Lemma zero_height_is_an_error_witness :
  Py.py_float (H := Decimal.builtins)
    (Evaluator.height_raw (Sample.input "14" "100" "120" "80" "180" "0" "65"))
  = Py.Ok (S754_zero false) /\
  Py.raises
    (Py.py_float (H := Decimal.builtins)
       (Evaluator.weight_raw (Sample.input "14" "100" "120" "80" "180" "0" "65")))
  = false /\
  exists ev pg,
    Evaluator.evaluate (H := Decimal.builtins)
      (Sample.input "14" "100" "120" "80" "180" "0" "65") [] None None
    = Py.Ok ev /\
    status <$> dict_get "BMI" (Evaluator.result ev) = Some "Error" /\
    is_Some (Evaluator.hb ev) /\ is_Some (Evaluator.chol ev) /\
    Evaluator.bmi_value ev = None /\
    index (H := Decimal.builtins)
      (Sample.post "14" "100" "120" "80" "180" "0" "65")
      Sample.alice Sample.now Sample.three_rows
    = Py.Ok (pg, Sample.three_rows).
Proof.
  split; [reflexivity|]. split; [reflexivity|].
  destruct (zero_height_is_an_error (H := Decimal.builtins)
              (Sample.input "14" "100" "120" "80" "180" "0" "65")
              false (Py.float_of_Z 65) eq_refl eq_refl)
    as (_ & ev & Hev & Hbmi & _ & _ & _ & Hnone & Hidx).
  destruct (Hidx (Sample.post "14" "100" "120" "80" "180" "0" "65")
              Sample.alice Sample.now Sample.three_rows eq_refl eq_refl)
    as (pg & Hpg).
  exists ev, pg. split; [exact Hev|]. split; [now rewrite Hbmi|].
  vm_compute in Hev. injection Hev as <-.
  split; [cbn; eauto|]. split; [cbn; eauto|]. split; [reflexivity | exact Hpg].
Defined.

(* ===================================================================== *)
(** * Deletion *)
(* ===================================================================== *)

Section Deletion.

Lemma In_delete_where cond d r :
  In r (Store.reports (Store.delete_where cond d)) <->
  In r (Store.reports d) /\ cond r = false.
Proof.
  unfold Store.delete_where. cbn [Store.reports].
  rewrite filter_In, negb_true_iff. reflexivity.
Qed.

Lemma owned_by_spec uid r :
  Store.owned_by (Some uid) r = true <-> Store.user_id r = Some uid.
Proof.
  unfold Store.owned_by. destruct (Store.user_id r) as [u|].
  - rewrite Z.eqb_eq. split; congruence.
  - split; discriminate.
Qed.

(** Rows that a selection never picks among the deleted ones are
    selected as before. *)
Lemma filter_delete_where (sel cond : Store.report -> bool) d :
  (forall r, cond r = true -> sel r = false) ->
  List.filter sel (Store.reports (Store.delete_where cond d)) =
  List.filter sel (Store.reports d).
Proof.
  intros Hdisj. unfold Store.delete_where. cbn [Store.reports].
  induction (Store.reports d) as [|r l IH]; [reflexivity|].
  cbn [List.filter]. destruct (cond r) eqn:E; cbn [negb].
  - rewrite (Hdisj r E). exact IH.
  - cbn [List.filter]. now rewrite IH.
Qed.

Lemma truthy_Some uid : uid <> 0 -> Py.truthy (Some uid) = true.
Proof. intros Hne. cbn. now apply negb_true_iff, Z.eqb_neq. Qed.

End Deletion.

(** C9. With an owner in the session, [clear_history] removes the rows of
    that owner and no other: any selection of rows that picks none of the
    owner's is the same before and after; and [delete_report] removes a row
    only when both its id and its owner match. Without an owner,
    [clear_history] empties the table and [delete_report] removes the rows
    with the given id, whoever owns them. An owner is an AUTOINCREMENT row
    id, which is never [0]. *)
Theorem deletion_is_owner_scoped sess d :
  (forall uid,
     session_user_id sess = Some uid -> uid <> 0 ->
     (forall r,
        In r (Store.reports (clear_history sess d)) <->
        In r (Store.reports d) /\ Store.user_id r <> Some uid) /\
     (forall sel : Store.report -> bool,
        (forall r, Store.user_id r = Some uid -> sel r = false) ->
        List.filter sel (Store.reports (clear_history sess d)) =
        List.filter sel (Store.reports d)) /\
     (forall report_id r,
        In r (Store.reports (delete_report report_id sess d)) <->
        In r (Store.reports d) /\
        ~ (Store.id r = report_id /\ Store.user_id r = Some uid)) /\
     (forall report_id (sel : Store.report -> bool),
        (forall r, Store.id r = report_id -> Store.user_id r = Some uid ->
                   sel r = false) ->
        List.filter sel (Store.reports (delete_report report_id sess d)) =
        List.filter sel (Store.reports d))) /\
  (session_user_id sess = None ->
   Store.reports (clear_history sess d) = [] /\
   (forall report_id r,
      In r (Store.reports (delete_report report_id sess d)) <->
      In r (Store.reports d) /\ Store.id r <> report_id) /\
   (forall report_id (sel : Store.report -> bool),
      (forall r, Store.id r = report_id -> sel r = false) ->
      List.filter sel (Store.reports (delete_report report_id sess d)) =
      List.filter sel (Store.reports d))).
Proof.
  unfold clear_history, delete_report, get_current_user. split.
  - intros uid Hs Hne. rewrite Hs, (truthy_Some uid Hne).
    split; [|split; [|split]].
    + intros r. rewrite In_delete_where.
      rewrite <- (owned_by_spec uid r).
      destruct (Store.owned_by (Some uid) r); split; intros [? ?]; split;
        congruence.
    + intros sel Hsel. apply filter_delete_where.
      intros r Hr. now apply Hsel, owned_by_spec.
    + intros report_id r. rewrite In_delete_where.
      rewrite andb_false_iff, Z.eqb_neq, <- (owned_by_spec uid r).
      destruct (Store.owned_by (Some uid) r); intuition congruence.
    + intros report_id sel Hsel. apply filter_delete_where.
      intros r Hr. apply andb_prop in Hr as [Hid Ho].
      apply Hsel; [now apply Z.eqb_eq | now apply owned_by_spec].
  - intros Hs. rewrite Hs. cbn [Py.truthy].
    split; [|split].
    + unfold Store.delete_where. cbn [Store.reports negb].
      induction (Store.reports d) as [|r l IH]; [reflexivity | exact IH].
    + intros report_id r. rewrite In_delete_where, Z.eqb_neq. reflexivity.
    + intros report_id sel Hsel. apply filter_delete_where.
      intros r Hr. now apply Hsel, Z.eqb_eq.
Qed.

(** Three rows, owned by users 1 and 2 and by nobody: what user 1 and a
    guest delete. *)
Lemma deletion_is_owner_scoped_witness :
  session_user_id Sample.alice = Some 1 /\
  session_user_id Sample.guest = None /\
  (forall r,
     In r (Store.reports (clear_history Sample.alice Sample.three_rows)) <->
     In r (Store.reports Sample.three_rows) /\ Store.user_id r <> Some 1) /\
  Store.reports (clear_history Sample.alice Sample.three_rows) =
    [Sample.row 2 (Some 2); Sample.row 3 None] /\
  Store.reports (delete_report 2 Sample.alice Sample.three_rows) =
    Store.reports Sample.three_rows /\
  Store.reports (clear_history Sample.guest Sample.three_rows) = [] /\
  Store.reports (delete_report 2 Sample.guest Sample.three_rows) =
    [Sample.row 1 (Some 1); Sample.row 3 None].
Proof.
  destruct (deletion_is_owner_scoped Sample.alice Sample.three_rows)
    as [Howner _].
  destruct (Howner 1 eq_refl ltac:(discriminate)) as (Hclear & _).
  destruct (deletion_is_owner_scoped Sample.guest Sample.three_rows)
    as [_ Hguest].
  destruct (Hguest eq_refl) as (Hall & _).
  split; [reflexivity|]. split; [reflexivity|]. split; [exact Hclear|].
  split; [reflexivity|]. split; [reflexivity|]. split; [exact Hall|].
  reflexivity.
Defined.

(* ===================================================================== *)
(** * Worked examples *)
(* ===================================================================== *)

Section Examples.
Import Decimal.

Example all_normal_is_stable :
  summary_line
    (index (Sample.post "14" "100" "120" "80" "180" "170" "65")
       Sample.guest Sample.now Sample.empty_db)
  = Some (["Normal"; "Normal"; "Normal"; "Normal"; "22.5 (Normal)"],
          Some "Stable / Normal", 1%nat).
Proof. vm_compute. reflexivity. Qed.

Example one_abnormal_is_mild_concern :
  summary_line
    (index (Sample.post "14" "150" "120" "80" "180" "170" "65")
       Sample.guest Sample.now Sample.empty_db)
  = Some (["Normal"; "High"; "Normal"; "Normal"; "22.5 (Normal)"],
          Some "Mild Concern", 1%nat).
Proof. vm_compute. reflexivity. Qed.

Example four_abnormal_is_high_risk :
  summary_line
    (index (Sample.post "10" "150" "200" "50" "250" "170" "70")
       Sample.guest Sample.now Sample.empty_db)
  = Some (["Low"; "High"; "Low"; "High"; "24.2 (Normal)"],
          Some "High Risk", 1%nat).
Proof. vm_compute. reflexivity. Qed.

Example empty_sugar_is_a_data_issue :
  summary_line
    (index (Sample.post "14" "" "120" "80" "190" "170" "70")
       Sample.guest Sample.now Sample.empty_db)
  = Some (["Normal"; "Error"; "Normal"; "Normal"; "24.2 (Normal)"],
          Some "Data Issue", 0%nat).
Proof. vm_compute. reflexivity. Qed.

Example empty_form_is_a_data_issue :
  summary_line
    (index {| method := POST; form := ∅ |}
       Sample.guest Sample.now Sample.empty_db)
  = Some (["Error"; "Error"; "Error"; "Error"; "Error"],
          Some "Data Issue", 0%nat).
Proof. vm_compute. reflexivity. Qed.

Example get_renders_nothing :
  summary_line (index Sample.get Sample.guest Sample.now Sample.empty_db)
  = Some ([], None, 0%nat).
Proof. vm_compute. reflexivity. Qed.

(** A NaN passes neither test of a rule and is filed as "Normal". *)
Example nan_is_normal :
  summary_line
    (index (Sample.post "nan" "100" "120" "80" "180" "170" "65")
       Sample.guest Sample.now Sample.empty_db)
  = Some (["Normal"; "Normal"; "Normal"; "Normal"; "22.5 (Normal)"],
          Some "Stable / Normal", 1%nat).
Proof. vm_compute. reflexivity. Qed.

End Examples.
